(** * verification/verify_scroll_sync.py

    A shallow embedding of the scroll-sync verification script and the
    properties of its runs.

    The script is a single coroutine, [main], that talks to two external
    parties: the Playwright automation library and the asyncio runtime.
    Every [await] of the source is a call into one of them; the call
    either returns a Python value or raises.  The coroutine is embedded
    as a tree of such calls ([coro]); what the outside world answers is
    an oracle ([env]) over which every theorem quantifies, so a theorem
    about "every run" covers every way the library can behave. *)

From Stdlib Require Import ZArith Strings.Byte.
From stdpp Require Import gmap strings list.

Local Open Scope string_scope.
Local Open Scope list_scope.
Local Open Scope Z_scope.

(** ** Python values and exceptions *)

(** The values the script handles: [None], booleans, opaque library
    objects (the Playwright handle, the browser, the page) and [bytes]
    (the captured image). *)
Inductive pyval : Type :=
| PyNone
| PyBool (b : bool)
| PyObj (id : nat)
| PyBytes (data : list Byte.byte).

#[global] Instance byte_eq_dec : EqDecision Byte.byte := Byte.byte_eq_dec.
#[global] Instance pyval_eq_dec : EqDecision pyval.
Proof. solve_decision. Defined.

(** Python truth value testing, as [async with] applies it to what
    [__aexit__] returns. *)
Definition truthy (v : pyval) : bool :=
  match v with
  | PyNone => false
  | PyBool b => b
  | PyObj _ => true
  | PyBytes data => negb (bool_decide (length data = 0%nat))
  end.

(** An exception is identified by its message. *)
Definition exn : Type := string.

(** ** Calls into the library and the runtime

    One constructor per awaited expression of the source, with the
    receiver object and the arguments the source passes. *)
Inductive call : Type :=
| aenter                                              (* async_playwright().__aenter__() *)
| chromium_launch (p : pyval) (kwargs : list (string * pyval))
| new_page (browser : pyval)
| goto (page : pyval) (url : string)
| mouse_move (page : pyval) (x y : Z)
| mouse_wheel (page : pyval) (delta_x delta_y : Z)
| asyncio_sleep (delay : Z)
| screenshot (page : pyval) (path : string)
| close (browser : pyval)
| aexit (exc : option exn).                           (* async_playwright().__aexit__(...) *)

Inductive outcome : Type :=
| Returned (v : pyval)
| Raised (e : exn).

Definition event : Type := call * outcome.

(** The outside world: given the events so far, how the next call ends. *)
Definition env : Type := list event -> call -> outcome.

(** ** Coroutines *)

Inductive result (A : Type) : Type :=
| Ok (a : A)
| Exc (e : exn).
Arguments Ok {A} a.
Arguments Exc {A} e.

Inductive coro (A : Type) : Type :=
| Return (a : A)
| Raise (e : exn)
| Await (c : call) (k : outcome -> coro A).
Arguments Return {A} a.
Arguments Raise {A} e.
Arguments Await {A} c k.

(** [await c]: the value of the call, or its exception re-raised here. *)
Definition await (c : call) : coro pyval :=
  Await c (fun o => match o with
                    | Returned v => Return v
                    | Raised e => Raise e
                    end).

(** [try_else m h k]: run [m]; on an exception run the handler [h], on
    normal completion continue with [k].  Neither [h] nor [k] is covered
    by the handler. *)
Fixpoint try_else {A B : Type} (m : coro A) (h : exn -> coro B) (k : A -> coro B)
  : coro B :=
  match m with
  | Return a => k a
  | Raise e => h e
  | Await c f => Await c (fun o => try_else (f o) h k)
  end.

Definition bind {A B : Type} (m : coro A) (k : A -> coro B) : coro B :=
  try_else m Raise k.

Declare Scope coro_scope.
Delimit Scope coro_scope with coro.
Notation "x <- m ;; k" := (bind m (fun x => k))
  (at level 100, m at next level, right associativity) : coro_scope.
Notation "m ;; k" := (bind m (fun _ => k))
  (at level 100, right associativity) : coro_scope.
Local Open Scope coro_scope.

(** [async with <manager> as x: body], after the language reference:
    [__aenter__] is awaited first (if it raises, [__aexit__] is not
    called); the body runs; [__aexit__] is awaited with the body's
    exception, or with none; the exception is swallowed exactly when
    [__aexit__] returns a true value. *)
Definition async_with (body : pyval -> coro unit) : coro unit :=
  x <- await aenter ;;
  try_else (body x)
    (fun e => r <- await (aexit (Some e)) ;;
              if truthy r then Return tt else Raise e)
    (fun _ => await (aexit None) ;; Return tt).

(** ** The script *)

Definition main : coro unit :=
  async_with (fun p =>
    browser <- await (chromium_launch p []) ;;
    page <- await (new_page browser) ;;
    await (goto page "http://localhost:5173") ;;
    await (mouse_move page 300 300) ;;
    await (mouse_wheel page 0 500) ;;
    await (asyncio_sleep 1) ;;
    await (screenshot page "verification/scroll-sync.png") ;;
    await (close browser) ;;
    Return tt).

(** [asyncio.run(coro)] drives the coroutine to completion and hands
    back its result or its exception. *)
Definition asyncio_run {A : Type} (m : coro A) : coro A := m.

(** The last statement of the module:
    [if __name__ == "__main__": asyncio.run(main())].  The two imports
    before it are not part of the model: a run, here, is a run of a
    module whose imports have succeeded. *)
Definition module_body (__name__ : string) : coro unit :=
  if String.eqb __name__ "__main__" then asyncio_run main else Return tt.

(** ** Running a coroutine against the world *)

Fixpoint exec {A : Type} (w : env) (hist : list event) (m : coro A)
  : list event * result A :=
  match m with
  | Return a => ([], Ok a)
  | Raise e => ([], Exc e)
  | Await c k =>
      let o := w hist c in
      let '(evs, r) := exec w (hist ++ [(c, o)]) (k o) in
      ((c, o) :: evs, r)
  end.

(** ** The process *)

(** What the interpreter is started with.  [python verify_scroll_sync.py]
    executes the module under the name [__main__]. *)
Record invocation : Type := {
  sys_argv : list string;
  os_environ : gmap string string;
  files : gmap string pyval
}.

(** The status of the interpreter process: 0 when the module body ends
    normally, 1 when an exception reaches the top level. *)
Definition exit_status {A : Type} (r : result A) : Z :=
  match r with
  | Ok _ => 0
  | Exc _ => 1
  end.

(** The one call of the script that names a file: a capture that returns
    has saved the image it returns at [path], replacing what was there. *)
Definition fs_write (fs : gmap string pyval) (ev : event) : gmap string pyval :=
  match ev with
  | (screenshot _ path, Returned img) => <[path := img]> fs
  | _ => fs
  end.

Record run : Type := {
  events : list event;
  final : result unit;
  status : Z;
  files_after : gmap string pyval
}.

Definition python (ctx : invocation) (w : env) : run :=
  let '(evs, r) := exec w [] (module_body "__main__") in
  {| events := evs;
     final := r;
     status := exit_status r;
     files_after := foldl fs_write (files ctx) evs |}.

(** ** Observing a run *)

Definition raised (ev : event) : bool :=
  match ev.2 with
  | Raised _ => true
  | Returned _ => false
  end.

Definition is_launch (c : call) : bool :=
  match c with chromium_launch _ _ => true | _ => false end.
Definition is_new_page (c : call) : bool :=
  match c with new_page _ => true | _ => false end.
Definition is_goto (c : call) : bool :=
  match c with goto _ _ => true | _ => false end.
Definition is_input (c : call) : bool :=
  match c with mouse_move _ _ _ | mouse_wheel _ _ _ => true | _ => false end.
Definition is_wheel (c : call) : bool :=
  match c with mouse_wheel _ _ _ => true | _ => false end.
Definition is_screenshot (c : call) : bool :=
  match c with screenshot _ _ => true | _ => false end.
Definition is_close (c : call) : bool :=
  match c with close _ => true | _ => false end.
Definition is_aexit (c : call) : bool :=
  match c with aexit _ => true | _ => false end.

Definition calls (evs : list event) : list call := evs.*1.

(** Whether a call of kind [p] was issued. *)
Definition reached (p : call -> bool) (evs : list event) : bool :=
  existsb (fun ev => p ev.1) evs.

(** The first event of kind [p], if any. *)
Definition first_of (p : call -> bool) (evs : list event) : option event :=
  List.find (fun ev => p ev.1) evs.

(** The events strictly before the first call of kind [p] (all of them
    when there is none). *)
Fixpoint before (p : call -> bool) (evs : list event) : list event :=
  match evs with
  | [] => []
  | ev :: rest => if p ev.1 then [] else ev :: before p rest
  end.

(** The events strictly after the first call of kind [p] (none when
    there is no such call). *)
Fixpoint after (p : call -> bool) (evs : list event) : list event :=
  match evs with
  | [] => []
  | ev :: rest => if p ev.1 then rest else after p rest
  end.

(** The calls of kind [p], in order. *)
Definition only (p : call -> bool) (evs : list event) : list call :=
  List.filter p (calls evs).

(** The exception raised last, which is the one in flight when the run
    ends. *)
Definition last_raised (evs : list event) : option exn :=
  foldl (fun acc ev => match ev.2 with
                       | Raised e => Some e
                       | Returned _ => acc
                       end) None evs.

(** Where the simulated pointer is after [evs]: the target of the last
    pointer move that returned.  A wheel event is dispatched there. *)
Definition pointer (evs : list event) : option (Z * Z) :=
  foldl (fun pos ev => match ev with
                       | (mouse_move _ x y, Returned _) => Some (x, y)
                       | _ => pos
                       end) None evs.

(** The seconds of suspension asked of the event loop in [evs]. *)
Definition suspended (evs : list event) : Z :=
  foldl (fun t ev => match ev with
                     | (asyncio_sleep delay, Returned _) => t + delay
                     | _ => t
                     end) 0 evs.

(** Modelled from the spec: the default of the [headless] launch option
    is a constant of the Playwright library, which is not under src/;
    spec section 4.1 step 1 has the browser acquired in headless mode. *)
Definition launch_default_headless : bool := true.

(** The mode a launch with the keyword arguments [kwargs] runs in. *)
Definition headless (kwargs : list (string * pyval)) : bool :=
  match List.find (fun kv => String.eqb kv.1 "headless") kwargs with
  | Some kv => truthy kv.2
  | None => launch_default_headless
  end.

(** The mode of a launch; nothing for any other call. *)
Definition launch_mode (c : call) : option bool :=
  match c with
  | chromium_launch _ kwargs => Some (headless kwargs)
  | _ => None
  end.

(** The browsers the launches of [evs] handed out. *)
Definition launched (evs : list event) : list pyval :=
  omap (fun ev => match ev with
                  | (chromium_launch _ _, Returned browser) => Some browser
                  | _ => None
                  end) evs.

(** The browsers on which the script called [close]. *)
Definition closed (evs : list event) : list pyval :=
  omap (fun ev => match ev with
                  | (close browser, _) => Some browser
                  | _ => None
                  end) evs.

(** The browsers handed out that the script never closed itself. *)
Definition orphaned (evs : list event) : list pyval :=
  List.filter (fun browser => negb (bool_decide (browser ∈ closed evs)))
              (launched evs).

(** Whether the automation driver started by [__aenter__] is still up:
    [__aexit__] stops it. *)
Definition driver_running (evs : list event) : bool :=
  foldl (fun up ev => match ev with
                      | (aenter, Returned _) => true
                      | (aexit _, Returned _) => false
                      | _ => up
                      end) false evs.

(** The paths the calls of [evs] name as files to write. *)
Definition written_paths (evs : list event) : list string :=
  omap (fun ev => match ev.1 with
                  | screenshot _ path => Some path
                  | _ => None
                  end) evs.

(** A call without the objects the library handed out: what the script
    itself spells out. *)
Definition anonymous (c : call) : call :=
  match c with
  | aenter => aenter
  | chromium_launch _ kwargs => chromium_launch PyNone kwargs
  | new_page _ => new_page PyNone
  | goto _ url => goto PyNone url
  | mouse_move _ x y => mouse_move PyNone x y
  | mouse_wheel _ dx dy => mouse_wheel PyNone dx dy
  | asyncio_sleep delay => asyncio_sleep delay
  | screenshot _ path => screenshot PyNone path
  | close _ => close PyNone
  | aexit _ => aexit None
  end.

(** The operations of a run, in order: its calls up to the exit of the
    context manager, made anonymous. *)
Definition operations (evs : list event) : list call :=
  anonymous <$> List.filter (fun c => negb (is_aexit c)) (calls evs).

(** The steps of spec section 4.1, after entering the context manager. *)
Definition script_operations : list call :=
  [ aenter;
    chromium_launch PyNone [];
    new_page PyNone;
    goto PyNone "http://localhost:5173";
    mouse_move PyNone 300 300;
    mouse_wheel PyNone 0 500;
    asyncio_sleep 1;
    screenshot PyNone "verification/scroll-sync.png";
    close PyNone ].

(** The contract of Playwright's context manager that statements about
    exit statuses rest on: its [__aexit__] hands back [None], or at any
    rate nothing true, so [async with] swallows no exception. *)
Definition aexit_falsy (w : env) : Prop :=
  forall hist exc v, w hist (aexit exc) = Returned v -> truthy v = false.

Definition trace (ctx : invocation) (w : env) : list event :=
  events (python ctx w).

(** ** Sample worlds *)

Definition png : pyval := PyBytes [x89; x50; x4e; x47].

(** Everything works. *)
Definition healthy : env := fun _ c =>
  match c with
  | aenter => Returned (PyObj 0)
  | chromium_launch _ _ => Returned (PyObj 1)
  | new_page _ => Returned (PyObj 2)
  | goto _ _ => Returned (PyObj 3)
  | screenshot _ _ => Returned png
  | _ => Returned PyNone
  end.

(** Nothing listens on port 5173. *)
Definition server_down : env := fun hist c =>
  match c with
  | goto _ _ => Raised "net::ERR_CONNECTION_REFUSED"
  | _ => healthy hist c
  end.

(** The browser binary is missing. *)
Definition no_browser : env := fun hist c =>
  match c with
  | chromium_launch _ _ => Raised "Executable doesn't exist"
  | _ => healthy hist c
  end.

(** Not Playwright: a context manager whose exit handler hands back
    [True], over a server that is down. *)
Definition swallowing : env := fun hist c =>
  match c with
  | aexit _ => Returned (PyBool true)
  | _ => server_down hist c
  end.

Definition plain : invocation :=
  {| sys_argv := ["verification/verify_scroll_sync.py"];
     os_environ := ∅;
     files := ∅ |}.

(** Other arguments, another environment, an older capture on disk. *)
Definition busy : invocation :=
  {| sys_argv := ["verification/verify_scroll_sync.py"; "--headed"; "http://example.org"];
     os_environ := {[ "HEADLESS" := "0" ]};
     files := {[ "verification/scroll-sync.png" := PyBytes [x00] ]} |}.

(** ** Further observers *)

Definition is_aenter (c : call) : bool :=
  match c with aenter => true | _ => false end.

(** The calls made by the statements inside the [async with]. *)
Definition in_body (c : call) : bool :=
  negb (is_aenter c || is_aexit c).

(** The calls made on the browser object. *)
Definition on_browser (c : call) : bool :=
  match c with new_page _ | close _ => true | _ => false end.

(** The calls made on the page object (its mouse included). *)
Definition on_page (c : call) : bool :=
  match c with
  | goto _ _ | mouse_move _ _ _ | mouse_wheel _ _ _ | screenshot _ _ => true
  | _ => false
  end.

(** The object a call is made on. *)
Definition receiver (c : call) : option pyval :=
  match c with
  | chromium_launch p _ => Some p
  | new_page browser | close browser => Some browser
  | goto page _ | mouse_move page _ _ | mouse_wheel page _ _
  | screenshot page _ => Some page
  | aenter | asyncio_sleep _ | aexit _ => None
  end.

(** The pages the [new_page] calls of [evs] handed out. *)
Definition created (evs : list event) : list pyval :=
  omap (fun ev => match ev with
                  | (new_page _, Returned page) => Some page
                  | _ => None
                  end) evs.

(** The events strictly after the first call that raised (none when no
    call raised). *)
Fixpoint after_raise (evs : list event) : list event :=
  match evs with
  | [] => []
  | ev :: rest => if raised ev then rest else after_raise rest
  end.




(** The capture is saved, then the browser refuses to close. *)
Definition close_fails : env := fun hist c =>
  match c with
  | close _ => Raised "Target closed"
  | _ => healthy hist c
  end.

(** The automation driver does not start. *)
Definition driver_missing : env := fun hist c =>
  match c with
  | aenter => Raised "Driver not found"
  | _ => healthy hist c
  end.


(** ** Tactics *)

(** Case analysis on what the world answers, call after call, along the
    run in the goal. *)
Ltac ask w :=
  match goal with
  | |- context [w ?h ?c] =>
      lazymatch h with
      | context [w _ _] => fail
      | _ => let E := fresh "E" in destruct (w h c) eqn:E
      end
  | |- context [truthy ?v] =>
      let T := fresh "T" in destruct (truthy v) eqn:T
  end.

Ltac paths w := unfold trace, python; cbn; repeat (ask w; cbn).

(** A world in which the exit handler hands back nothing true cannot
    have answered an exit call with something true. *)
Ltac falsy_exit H :=
  match goal with
  | E : _ _ (aexit _) = Returned ?v, T : truthy ?v = true |- _ =>
      rewrite (H _ _ _ E) in T; discriminate T
  end.

(** ** How [exec] goes through the combinators *)

Section Exec.
Context {A B : Type}.
Variable w : env.

Lemma exec_try_else (m : coro A) (h : exn -> coro B) (k : A -> coro B) hist :
  exec w hist (try_else m h k) =
    let '(evs, r) := exec w hist m in
    let '(evs', r') :=
      exec w (hist ++ evs) (match r with Ok a => k a | Exc e => h e end) in
    (evs ++ evs', r').
Proof.
  revert hist. induction m as [a | e | c f IH]; intros hist; simpl.
  - rewrite app_nil_r. by destruct (exec w hist (k a)).
  - rewrite app_nil_r. by destruct (exec w hist (h e)).
  - rewrite IH. destruct (exec w _ (f _)) as [evs r].
    rewrite <- app_assoc. simpl.
    by destruct (exec w _ _).
Qed.

Lemma exec_bind (m : coro A) (k : A -> coro B) hist :
  exec w hist (bind m k) =
    let '(evs, r) := exec w hist m in
    match r with
    | Ok a => let '(evs', r') := exec w (hist ++ evs) (k a) in (evs ++ evs', r')
    | Exc e => (evs, Exc e)
    end.
Proof.
  unfold bind. rewrite exec_try_else.
  destruct (exec w hist m) as [evs [a | e]]; [done |].
  simpl. by rewrite app_nil_r.
Qed.
End Exec.

Example healthy_trace :
  trace plain healthy =
    [ (aenter, Returned (PyObj 0));
      (chromium_launch (PyObj 0) [], Returned (PyObj 1));
      (new_page (PyObj 1), Returned (PyObj 2));
      (goto (PyObj 2) "http://localhost:5173", Returned (PyObj 3));
      (mouse_move (PyObj 2) 300 300, Returned PyNone);
      (mouse_wheel (PyObj 2) 0 500, Returned PyNone);
      (asyncio_sleep 1, Returned PyNone);
      (screenshot (PyObj 2) "verification/scroll-sync.png", Returned png);
      (close (PyObj 1), Returned PyNone);
      (aexit None, Returned PyNone) ].
Proof. reflexivity. Qed.

Example server_down_trace :
  trace plain server_down =
    [ (aenter, Returned (PyObj 0));
      (chromium_launch (PyObj 0) [], Returned (PyObj 1));
      (new_page (PyObj 1), Returned (PyObj 2));
      (goto (PyObj 2) "http://localhost:5173", Raised "net::ERR_CONNECTION_REFUSED");
      (aexit (Some "net::ERR_CONNECTION_REFUSED"), Returned PyNone) ]
  /\ status (python plain server_down) = 1.
Proof. split; reflexivity. Qed.

Example no_browser_trace :
  trace plain no_browser =
    [ (aenter, Returned (PyObj 0));
      (chromium_launch (PyObj 0) [], Raised "Executable doesn't exist");
      (aexit (Some "Executable doesn't exist"), Returned PyNone) ].
Proof. reflexivity. Qed.

(** ** The gesture *)

(** C1: in every run that reaches the screenshot step (which no run does
    after an earlier exception), the input injected before the capture
    is exactly one pointer move to (300, 300) followed by exactly one
    wheel event on the same page, emitted with the pointer at (300, 300),
    with deltas (0, 500). *)
Theorem gesture_before_capture (ctx : invocation) (w : env) :
  reached is_screenshot (trace ctx w) = true ->
  existsb raised (before is_screenshot (trace ctx w)) = false /\
  exists page,
    only is_input (before is_screenshot (trace ctx w))
      = [mouse_move page 300 300; mouse_wheel page 0 500] /\
    pointer (before is_wheel (trace ctx w)) = Some (300, 300).
Proof.
  paths w; intros Hreach; try discriminate Hreach.
  all: split; [reflexivity | eexists; split; reflexivity].
Qed.

Lemma gesture_before_capture_witness :
  reached is_screenshot (trace plain healthy) = true /\
  exists page,
    only is_input (before is_screenshot (trace plain healthy))
      = [mouse_move page 300 300; mouse_wheel page 0 500].
Proof.
  split; [reflexivity |].
  destruct (gesture_before_capture plain healthy eq_refl) as [_ [page [Hin _]]].
  exists page. exact Hin.
Defined.

(** ** Errors *)

(** C2: when a call of the run raises (the launch, the navigation, an
    input, the capture, or any other), nothing catches the error: the
    exception in flight when the run ends reaches the top level and the
    process ends with a non-zero status.  The error of the failing step
    is handed to the exit handler of the context manager and, the
    handler having returned, is that exception.  The one construct of
    the script that could swallow it is [async with], which does so only
    if [__aexit__] hands back a true value; Playwright's hands back
    [None]. *)
Theorem error_propagates (ctx : invocation) (w : env) :
  aexit_falsy w ->
  existsb raised (trace ctx w) = true ->
  (exists e,
     last_raised (trace ctx w) = Some e /\
     final (python ctx w) = Exc e /\
     status (python ctx w) <> 0) /\
  (forall c e exc v,
     List.find raised (trace ctx w) = Some (c, Raised e) ->
     last (trace ctx w) = Some (aexit exc, Returned v) ->
     exc = Some e /\ final (python ctx w) = Exc e).
Proof.
  intros Hfalsy Hraised. split.
  - revert Hraised. paths w; intros Hraised; try discriminate Hraised;
      try falsy_exit Hfalsy.
    all: eexists; split; [reflexivity | split; [reflexivity | discriminate]].
  - intros c e exc v. clear Hraised.
    paths w; intros Hfirst Hlast; try discriminate Hfirst;
      try discriminate Hlast; try falsy_exit Hfalsy.
    all: injection Hfirst as <- <-; injection Hlast as <- <-.
    all: split; reflexivity.
Qed.

Lemma error_propagates_witness :
  final (python plain server_down) = Exc "net::ERR_CONNECTION_REFUSED" /\
  status (python plain server_down) <> 0.
Proof.
  assert (Hfalsy : aexit_falsy server_down)
    by (intros hist exc v [= <-]; reflexivity).
  destruct (error_propagates plain server_down Hfalsy eq_refl)
    as [(e & _ & _ & Hstatus) Hsame].
  split; [| exact Hstatus].
  apply (Hsame (goto (PyObj 2) "http://localhost:5173") _
               (Some "net::ERR_CONNECTION_REFUSED") PyNone);
    reflexivity.
Defined.

(** Why the contract is needed: with an exit handler that hands back
    [True], [async with] swallows the error, and the process ends with
    status 0. *)
Example swallowing_ends_well :
  existsb raised (trace plain swallowing) = true /\
  final (python plain swallowing) = Ok tt /\
  status (python plain swallowing) = 0.
Proof. repeat split. Qed.

(** C3: when the navigation raises, the capture is never attempted: the
    run names no file to write, the file system is what it was (so no
    capture appears and an older one stays as it is), and the process
    ends with a non-zero status. *)
Theorem navigation_failure_leaves_no_capture (ctx : invocation) (w : env) :
  aexit_falsy w ->
  existsb (fun ev => is_goto ev.1 && raised ev) (trace ctx w) = true ->
  reached is_screenshot (trace ctx w) = false /\
  written_paths (trace ctx w) = [] /\
  files_after (python ctx w) = files ctx /\
  files_after (python ctx w) !! "verification/scroll-sync.png"
    = files ctx !! "verification/scroll-sync.png" /\
  status (python ctx w) <> 0.
Proof.
  intros Hfalsy. paths w; intros Hnav; try discriminate Hnav;
    try falsy_exit Hfalsy.
  all: repeat split; discriminate.
Qed.

Lemma navigation_failure_leaves_no_capture_witness :
  files_after (python busy server_down) !! "verification/scroll-sync.png"
    = Some (PyBytes [x00]) /\
  status (python busy server_down) <> 0.
Proof.
  assert (Hfalsy : aexit_falsy server_down)
    by (intros hist exc v [= <-]; reflexivity).
  destruct (navigation_failure_leaves_no_capture busy server_down Hfalsy eq_refl)
    as (_ & _ & _ & Hfile & Hstatus).
  split; [| exact Hstatus].
  rewrite Hfile. reflexivity.
Defined.

(** ** The browser *)




(** ** Navigation *)

(** C5: no run navigates more than once or injects input before
    navigating; once the page is created, the very next call navigates
    that page to http://localhost:5173, and that is the only navigation
    of the run; when the navigation raises, the only call that follows
    is the exit of the context manager with that error: no retry and no
    further step. *)
Theorem navigation_once (ctx : invocation) (w : env) :
  (length (only is_goto (trace ctx w)) <= 1)%nat /\
  only is_input (before is_goto (trace ctx w)) = [] /\
  (forall browser page,
     first_of is_new_page (trace ctx w) = Some (new_page browser, Returned page) ->
     (exists o rest,
        after is_new_page (trace ctx w)
          = (goto page "http://localhost:5173", o) :: rest) /\
     only is_goto (trace ctx w) = [goto page "http://localhost:5173"]) /\
  (forall page url e,
     first_of is_goto (trace ctx w) = Some (goto page url, Raised e) ->
     exists o, after is_goto (trace ctx w) = [(aexit (Some e), o)]).
Proof.
  split; [| split; [| split]].
  - paths w; lia.
  - paths w; reflexivity.
  - intros browser page. paths w; intros [= <- <-]; eauto.
  - intros page url e. paths w; intros [= <- <- <-]; eauto.
Qed.

Lemma navigation_once_witness :
  only is_goto (trace plain healthy) = [goto (PyObj 2) "http://localhost:5173"] /\
  exists o,
    after is_goto (trace plain server_down)
      = [(aexit (Some "net::ERR_CONNECTION_REFUSED"), o)].
Proof.
  split.
  - apply (proj1 (proj2 (proj2 (navigation_once plain healthy))) (PyObj 1)).
    reflexivity.
  - apply (proj2 (proj2 (proj2 (navigation_once plain server_down)))
             (PyObj 2) "http://localhost:5173").
    reflexivity.
Defined.

(** ** The capture *)

(** C6: in every run in which no call raises, the capture is saved at
    verification/scroll-sync.png: afterwards that path holds the image
    the capture returned, whatever it held before, every other path
    holds what it held, and the run names no other file to write.  Such
    a run ends with status 0. *)
Theorem capture_written (ctx : invocation) (w : env) :
  existsb raised (trace ctx w) = false ->
  exists page img,
    first_of is_screenshot (trace ctx w)
      = Some (screenshot page "verification/scroll-sync.png", Returned img) /\
    files_after (python ctx w)
      = <["verification/scroll-sync.png" := img]> (files ctx) /\
    files_after (python ctx w) !! "verification/scroll-sync.png" = Some img /\
    (forall path, path <> "verification/scroll-sync.png" ->
       files_after (python ctx w) !! path = files ctx !! path) /\
    written_paths (trace ctx w) = ["verification/scroll-sync.png"] /\
    status (python ctx w) = 0.
Proof.
  paths w; intros Hok; try discriminate Hok.
  do 2 eexists. split; [reflexivity |]. split; [reflexivity |].
  split; [apply lookup_insert_eq |].
  split; [| split; reflexivity].
  intros path Hpath. by apply lookup_insert_ne.
Qed.

Lemma capture_written_witness :
  exists page img,
    first_of is_screenshot (trace busy healthy)
      = Some (screenshot page "verification/scroll-sync.png", Returned img) /\
    files_after (python busy healthy) !! "verification/scroll-sync.png" = Some img.
Proof.
  destruct (capture_written busy healthy eq_refl)
    as (page & img & Hfirst & _ & Hfile & _).
  exists page, img. split; [exact Hfirst | exact Hfile].
Defined.

(** C7: in every run that reaches the capture, what lies between the
    wheel event and the capture is exactly one call: a suspension of 1
    second, which returned. *)
Theorem settle_before_capture (ctx : invocation) (w : env) :
  reached is_screenshot (trace ctx w) = true ->
  exists v,
    before is_screenshot (after is_wheel (trace ctx w))
      = [(asyncio_sleep 1, Returned v)] /\
    suspended (before is_screenshot (after is_wheel (trace ctx w))) = 1.
Proof.
  paths w; intros Hreach; try discriminate Hreach.
  all: eexists; split; reflexivity.
Qed.

Lemma settle_before_capture_witness :
  exists v,
    before is_screenshot (after is_wheel (trace plain healthy))
      = [(asyncio_sleep 1, Returned v)] /\
    suspended (before is_screenshot (after is_wheel (trace plain healthy))) = 1.
Proof.
  apply (settle_before_capture plain healthy). reflexivity.
Defined.

(** ** The launch *)

Example headed_when_asked : headless [("headless", PyBool false)] = false.
Proof. reflexivity. Qed.

(** C8: every launch of every run is in headless mode; and in every run
    in which the context manager is entered, the first thing the script
    does is launch the browser, once and without any option. *)
Theorem launch_headless (ctx : invocation) (w : env) :
  forallb id (omap launch_mode (calls (trace ctx w))) = true /\
  (forall p,
     head (trace ctx w) = Some (aenter, Returned p) ->
     exists o rest,
       trace ctx w = (aenter, Returned p) :: (chromium_launch p [], o) :: rest /\
       headless [] = true /\
       only is_launch (trace ctx w) = [chromium_launch p []]).
Proof.
  split.
  - paths w; reflexivity.
  - intros p. paths w; intros [= <-].
    all: do 2 eexists; repeat split.
Qed.

Lemma launch_headless_witness :
  exists o rest,
    trace plain healthy
      = (aenter, Returned (PyObj 0)) :: (chromium_launch (PyObj 0) [], o) :: rest.
Proof.
  destruct (proj2 (launch_headless plain healthy) (PyObj 0) eq_refl)
    as (o & rest & Htrace & _).
  exists o, rest. exact Htrace.
Defined.

(** ** The context manager *)

Lemma exec_async_with (w : env) (body : pyval -> coro unit) hist p :
  w hist aenter = Returned p ->
  exec w hist (async_with body) =
    let '(evs, r) := exec w (hist ++ [(aenter, Returned p)]) (body p) in
    let exc := match r with Ok _ => None | Exc e => Some e end in
    let o := w (hist ++ (aenter, Returned p) :: evs) (aexit exc) in
    ((aenter, Returned p) :: evs ++ [(aexit exc, o)],
     match o, r with
     | Raised e', _ => Exc e'
     | Returned _, Ok _ => Ok tt
     | Returned v, Exc e => if truthy v then Ok tt else Exc e
     end).
Proof.
  intros Henter. unfold async_with. rewrite exec_bind. simpl.
  rewrite Henter. simpl. rewrite exec_try_else.
  destruct (exec w _ (body p)) as [evs [[] | e]]; simpl.
  all: rewrite <- (app_assoc hist); simpl.
  all: destruct (w _ (aexit _)) as [v | e']; simpl; [| reflexivity].
  - reflexivity.
  - by destruct (truthy v).
Qed.

(** C10: in every run in which the context manager is entered, whatever
    happens in its body, the last call of the run is the manager's exit
    handler; it is called exactly once and is handed the exception the
    body raised, if any; and once it has returned the automation driver
    is no longer up, also when [close] was never called. *)
Theorem driver_released (ctx : invocation) (w : env) (p : pyval) :
  head (trace ctx w) = Some (aenter, Returned p) ->
  exists body exc o,
    trace ctx w = (aenter, Returned p) :: body ++ [(aexit exc, o)] /\
    reached is_aexit body = false /\
    exc = last_raised body /\
    (forall v, o = Returned v -> driver_running (trace ctx w) = false).
Proof.
  intros Hhead.
  assert (Henter : w [] aenter = Returned p).
  { revert Hhead. unfold trace, python. cbn.
    destruct (w [] aenter) as [v | e]; cbn.
    - destruct (exec w _ _). by intros [= <-].
    - by intros [=]. }
  clear Hhead. unfold trace, python.
  change (module_body "__main__") with main. unfold main.
  rewrite (exec_async_with w _ [] p Henter).
  destruct (exec w _ _) as [body r] eqn:Hbody.
  cbn [events].
  eexists body, _, _. split; [reflexivity |].
  split; [| split].
  - revert Hbody. cbn. repeat (ask w; cbn). all: by intros [= <- <-].
  - revert Hbody. cbn. repeat (ask w; cbn). all: by intros [= <- <-].
  - intros v ->. unfold driver_running. simpl.
    rewrite foldl_app. reflexivity.
Qed.

Lemma driver_released_witness :
  reached is_close (trace plain server_down) = false /\
  exists body exc o,
    trace plain server_down = (aenter, Returned (PyObj 0)) :: body ++ [(aexit exc, o)] /\
    exc = last_raised body.
Proof.
  split; [reflexivity |].
  destruct (driver_released plain server_down (PyObj 0) eq_refl)
    as (body & exc & o & Htrace & _ & Hexc & _).
  exists body, exc, o. split; [exact Htrace | exact Hexc].
Defined.

(** ** Fixed inputs *)

(** As far as a run goes, it goes through the steps of the script. *)
Lemma operations_prefix (ctx : invocation) (w : env) :
  operations (trace ctx w) `prefix_of` script_operations.
Proof.
  paths w. all: eexists; reflexivity.
Qed.

Lemma operations_complete (ctx : invocation) (w : env) :
  existsb raised (trace ctx w) = false ->
  operations (trace ctx w) = script_operations.
Proof.
  paths w; intros Hok; try discriminate Hok. reflexivity.
Qed.

(** C9: the command line, the process environment and the files on disk
    have no part in what the script does.  Started in two different
    ways against a world that answers alike, it makes the same calls
    with the same arguments and ends alike.  Whatever the world answers,
    two runs go through the same operations with the same literal
    arguments for as long as both go on, and two runs in which no call
    raises go through all of them: the nine steps of the script. *)
Theorem fixed_literals (ctx1 ctx2 : invocation) (w w' : env) :
  (trace ctx1 w = trace ctx2 w /\
   final (python ctx1 w) = final (python ctx2 w) /\
   status (python ctx1 w) = status (python ctx2 w)) /\
  (operations (trace ctx1 w) `prefix_of` operations (trace ctx2 w') \/
   operations (trace ctx2 w') `prefix_of` operations (trace ctx1 w)) /\
  (existsb raised (trace ctx1 w) = false ->
   existsb raised (trace ctx2 w') = false ->
   operations (trace ctx1 w) = script_operations /\
   operations (trace ctx2 w') = script_operations).
Proof.
  split; [| split].
  - unfold trace, python.
    by destruct (exec w [] (module_body "__main__")).
  - eapply prefix_weak_total; apply operations_prefix.
  - intros Hok Hok'. split; by apply operations_complete.
Qed.

Lemma fixed_literals_witness :
  trace plain healthy = trace busy healthy /\
  operations (trace plain healthy) = script_operations /\
  operations (trace busy healthy) = script_operations.
Proof.
  destruct (fixed_literals plain busy healthy healthy) as (Hsame & _ & Hops).
  split; [exact (proj1 Hsame) |].
  apply Hops; reflexivity.
Defined.

(** ** Further properties of the runs *)

(** X1: any statement of the body that raises ends the body there: the
    only call made afterwards is the exit handler of the context
    manager, which is handed that very error. *)
Theorem first_failure_is_fatal (ctx : invocation) (w : env) (c : call) (e : exn) :
  List.find raised (trace ctx w) = Some (c, Raised e) ->
  in_body c = true ->
  exists o, after_raise (trace ctx w) = [(aexit (Some e), o)].
Proof.
  paths w; intros [= <- <-] Hbody; try discriminate Hbody.
  all: eexists; reflexivity.
Qed.

Lemma first_failure_is_fatal_witness :
  exists o,
    after_raise (trace plain close_fails) = [(aexit (Some "Target closed"), o)].
Proof.
  apply (first_failure_is_fatal plain close_fails (close (PyObj 1)));
    reflexivity.
Defined.

(** X2: when entering the context manager raises, the run makes no
    other call, not even to the exit handler; the error reaches the top
    level, the status is 1 and no file is touched. *)
Theorem enter_failure (ctx : invocation) (w : env) (e : exn) :
  head (trace ctx w) = Some (aenter, Raised e) ->
  trace ctx w = [(aenter, Raised e)] /\
  final (python ctx w) = Exc e /\
  status (python ctx w) = 1 /\
  files_after (python ctx w) = files ctx.
Proof.
  unfold trace, python; cbn.
  destruct (w [] aenter) as [p | e'] eqn:Henter; cbn.
  - destruct (exec w _ _). by intros [=].
  - by intros [= <-].
Qed.

Lemma enter_failure_witness :
  trace busy driver_missing = [(aenter, Raised "Driver not found")] /\
  status (python busy driver_missing) = 1.
Proof.
  destruct (enter_failure busy driver_missing "Driver not found" eq_refl)
    as (Htrace & _ & Hstatus & _).
  split; [exact Htrace | exact Hstatus].
Defined.

(** X3: a run launches at most one browser and creates at most one
    page, and it makes calls on the objects it was handed and on no
    others: the launch on what [__aenter__] returned, [new_page] and
    [close] on the browser the launch returned, the navigation, the
    input and the capture on the page [new_page] returned.  Without a
    browser there is no call on a browser, without a page none on a
    page. *)
Theorem handles_threaded (ctx : invocation) (w : env) :
  (length (launched (trace ctx w)) <= 1)%nat /\
  (length (created (trace ctx w)) <= 1)%nat /\
  (forall p,
     head (trace ctx w) = Some (aenter, Returned p) ->
     Forall (fun c => is_launch c = true -> receiver c = Some p)
            (calls (trace ctx w))) /\
  (forall browser,
     launched (trace ctx w) = [browser] ->
     Forall (fun c => on_browser c = true -> receiver c = Some browser)
            (calls (trace ctx w))) /\
  (forall page,
     created (trace ctx w) = [page] ->
     Forall (fun c => on_page c = true -> receiver c = Some page)
            (calls (trace ctx w))) /\
  (launched (trace ctx w) = [] -> reached on_browser (trace ctx w) = false) /\
  (created (trace ctx w) = [] -> reached on_page (trace ctx w) = false).
Proof.
  split; [| split; [| split; [| split; [| split; [| split]]]]].
  - paths w; lia.
  - paths w; lia.
  - intros p. paths w; intros [= <-].
    all: repeat constructor; done.
  - intros browser. paths w; intros [= <-].
    all: repeat constructor; done.
  - intros page. paths w; intros [= <-].
    all: repeat constructor; done.
  - paths w; intros Hnone; try discriminate Hnone; reflexivity.
  - paths w; intros Hnone; try discriminate Hnone; reflexivity.
Qed.

Lemma handles_threaded_witness :
  Forall (fun c => on_page c = true -> receiver c = Some (PyObj 2))
         (calls (trace plain healthy)) /\
  reached on_page (trace plain no_browser) = false.
Proof.
  destruct (handles_threaded plain healthy) as (_ & _ & _ & _ & Hpage & _).
  destruct (handles_threaded plain no_browser) as (_ & _ & _ & _ & _ & _ & Hnone).
  split; [apply Hpage | apply Hnone]; reflexivity.
Defined.

(** ** Further properties of the files *)

(** What a run does to the files: nothing, unless the capture returned,
    and then it puts the image at the fixed path. *)
Lemma files_after_cases (ctx : invocation) (w : env) :
  ((forall page path img,
      first_of is_screenshot (trace ctx w)
        <> Some (screenshot page path, Returned img)) /\
   files_after (python ctx w) = files ctx) \/
  (exists page img,
     first_of is_screenshot (trace ctx w)
       = Some (screenshot page "verification/scroll-sync.png", Returned img) /\
     files_after (python ctx w)
       = <["verification/scroll-sync.png" := img]> (files ctx)).
Proof.
  paths w.
  all: first [ left; split; [intros page path img; discriminate | reflexivity]
             | right; do 2 eexists; split; reflexivity ].
Qed.

(** X4: whatever the world answers, a run leaves every file other than
    verification/scroll-sync.png as it was, and removes none. *)
Theorem other_files_untouched (ctx : invocation) (w : env) :
  (forall path,
     path <> "verification/scroll-sync.png" ->
     files_after (python ctx w) !! path = files ctx !! path) /\
  dom (files ctx) ⊆ dom (files_after (python ctx w)).
Proof.
  destruct (files_after_cases ctx w) as [[_ ->] | (page & img & _ & ->)].
  - done.
  - split.
    + intros path Hpath. by apply lookup_insert_ne.
    + apply dom_insert_subseteq.
Qed.

Lemma other_files_untouched_witness :
  files_after (python busy healthy) !! "verification/notes.txt"
    = files busy !! "verification/notes.txt".
Proof.
  apply (proj1 (other_files_untouched busy healthy)). discriminate.
Defined.

(** X5: the capture is on disk as soon as the capture call has returned:
    whatever fails afterwards (closing the browser, leaving the context
    manager), the fixed path holds the image.  And a run that never gets
    to the capture call leaves the files exactly as they were. *)
Theorem capture_survives_later_failure (ctx : invocation) (w : env) :
  (forall page path img,
     first_of is_screenshot (trace ctx w)
       = Some (screenshot page path, Returned img) ->
     path = "verification/scroll-sync.png" /\
     files_after (python ctx w) !! "verification/scroll-sync.png" = Some img) /\
  (reached is_screenshot (trace ctx w) = false ->
   files_after (python ctx w) = files ctx).
Proof.
  split.
  - intros page path img.
    paths w; intros [= <- <- <-].
    all: split; [reflexivity | apply lookup_insert_eq].
  - paths w; intros Hnever; try discriminate Hnever; reflexivity.
Qed.

Lemma capture_survives_later_failure_witness :
  status (python busy close_fails) = 1 /\
  files_after (python busy close_fails) !! "verification/scroll-sync.png"
    = Some png /\
  files_after (python busy no_browser) = files busy.
Proof.
  split; [reflexivity |]. split.
  - apply (proj1 (capture_survives_later_failure busy close_fails)
             (PyObj 2) "verification/scroll-sync.png" png).
    reflexivity.
  - apply (proj2 (capture_survives_later_failure busy no_browser)).
    reflexivity.
Defined.

(** ** Further properties of the process *)

(** X6: with Playwright's context manager, status 0 is a reliable sign
    of success: a run that ends with status 0 raised nowhere, went
    through all nine steps, left the capture at the fixed path, closed
    the browser it launched and stopped the driver. *)
Theorem exit_zero_means_done (ctx : invocation) (w : env) :
  aexit_falsy w ->
  status (python ctx w) = 0 ->
  existsb raised (trace ctx w) = false /\
  operations (trace ctx w) = script_operations /\
  (exists img,
     files_after (python ctx w) !! "verification/scroll-sync.png" = Some img) /\
  orphaned (trace ctx w) = [] /\
  driver_running (trace ctx w) = false.
Proof.
  intros Hfalsy. paths w; intros Hstatus; try discriminate Hstatus;
    try falsy_exit Hfalsy.
  split; [reflexivity |]. split; [reflexivity |].
  split; [eexists; apply lookup_insert_eq |].
  split; [| reflexivity].
  rewrite bool_decide_eq_true_2 by constructor. reflexivity.
Qed.

Lemma exit_zero_means_done_witness :
  operations (trace plain healthy) = script_operations /\
  orphaned (trace plain healthy) = [].
Proof.
  assert (Hfalsy : aexit_falsy healthy)
    by (intros hist exc v [= <-]; reflexivity).
  destruct (exit_zero_means_done plain healthy Hfalsy eq_refl)
    as (_ & Hops & _ & Horphan & _).
  split; [exact Hops | exact Horphan].
Defined.
